(** * simple-container: the launch sequence of [simple-container.c]

    The program is one C file with two functions: [main] (the Launcher) and
    [child_func] (the Isolation Bootstrap, entry point of the cloned child).
    Both are straight-line sequences of libc calls whose results decide
    whether the process goes on or terminates.  They are embedded as
    computations in a small process monad: the kernel is an oracle giving
    the result of every call, the process state carries the environment
    ([environ]) and the log of what the process did, and [exit] and a
    successful [execv] halt the computation. *)

From Stdlib Require Import ZArith String.
From stdpp Require Import base option list gmap strings fin_maps.

Local Open Scope string_scope.
Local Open Scope list_scope.
Local Open Scope Z_scope.

(** ** Constants of the C library and of the Linux headers

    The values are those of glibc on Linux (x86 and arm families). *)

Definition EXIT_FAILURE : Z := 1.

(** <sys/mount.h> *)
Definition MS_REC : Z := 16384.
Definition MS_PRIVATE : Z := 262144.
Definition MNT_DETACH : Z := 2.

(** <sched.h>, <signal.h> *)
Definition CSIGNAL : Z := 255.
Definition CLONE_NEWNS : Z := 131072.
Definition CLONE_NEWCGROUP : Z := 33554432.
Definition CLONE_NEWUTS : Z := 67108864.
Definition CLONE_NEWIPC : Z := 134217728.
Definition CLONE_NEWUSER : Z := 268435456.
Definition CLONE_NEWPID : Z := 536870912.
Definition CLONE_NEWNET : Z := 1073741824.
Definition SIGCHLD : Z := 17.

(** [#define STACK_SIZE (1024 * 1024)] *)
Definition STACK_SIZE : Z := 1024 * 1024.

(** The line feed ending the [printf] format strings. *)
Definition nl : string := String (Ascii.ascii_of_nat 10) EmptyString.

(** ** Calls, events and the kernel oracle *)

(** Pointers the program passes around: [NULL], or an offset into a global
    array ([child_stack + STACK_SIZE]). *)
Inductive ptr : Type :=
| Null
| Addr (symbol : string) (offset : Z).

(** Functions a cloned child can start at. *)
Inductive entry : Type :=
| Child_func.

(** The library calls of the program, with their arguments.  A [char *]
    argument that may be [NULL] is an [option string]. *)
Inductive call : Type :=
| Mount (source : option string) (target : string) (fstype : option string)
        (flags : Z) (data : option string)
| Sethostname (name : string) (len : Z)
| Chroot (path : string)
| Chdir (path : string)
| Clearenv
| Setenv (name value : string) (overwrite : Z)
| Execv (path : string) (argv : list string)
| Clone (fn : entry) (stack : ptr) (flags : Z) (arg : ptr)
| Waitpid (pid : Z) (status : ptr) (options : Z)
| Umount2 (target : string) (flags : Z).

(** What a process does, in order. *)
Inductive event : Type :=
| Printf (format : string) (args : list Z)
| Perror (msg : string)
| Call (c : call)
| Exit (status : Z).

(** The kernel and the C library, seen from the program: the value every
    call returns, whether an [execv] finds an image to run, and the status
    the workload ends with once it runs. *)
Record os : Type := {
  sys_ret : call -> Z;
  exec_replaces : string -> list string -> bool;
  workload_status : Z
}.

(** ** Processes *)

(** How a process stops: [exit(status)] (or a return from its entry
    function), or the replacement of its image by [execv], which hands the
    current environment to the new program. *)
Inductive halt : Type :=
| Exited (status : Z)
| Replaced (path : string) (argv : list string) (envp : gmap string string).

(** A finished child: how it stopped and what it did. *)
Record child_run : Type := {
  child_halt : halt;
  child_log : list event
}.

Record proc : Type := {
  environ : gmap string string;
  log : list event;
  child : option child_run
}.

Definition start (env : gmap string string) : proc :=
  {| environ := env; log := []; child := None |}.

Definition record (e : event) (st : proc) : proc :=
  {| environ := environ st; log := log st ++ [e]; child := child st |}.

Definition set_environ (env : gmap string string) (st : proc) : proc :=
  {| environ := env; log := log st; child := child st |}.

Definition set_child (c : child_run) (st : proc) : proc :=
  {| environ := environ st; log := log st; child := Some c |}.

(** ** The process monad *)

Inductive result (A : Type) : Type :=
| Value (a : A)
| Halted (h : halt).
Arguments Value {A} a.
Arguments Halted {A} h.

Definition M (A : Type) : Type := os -> proc -> result A * proc.

#[export] Instance M_ret : MRet M := fun A a _ st => (Value a, st).

#[export] Instance M_bind : MBind M := fun A B f m k st =>
  match m k st with
  | (Value a, st') => f a k st'
  | (Halted h, st') => (Halted h, st')
  end.

(** [if (cond) { body }] *)
Definition when (cond : bool) (body : M unit) : M unit :=
  if cond then body else mret tt.

(** [a && b] with C's short circuit: [b] runs only when [a] is true. *)
Definition andM (a b : M bool) : M bool :=
  a ≫= λ x : bool, if x then b else mret false.

(** [r != 0] and [r == v] on C ints. *)
Definition nonzero (r : Z) : bool := negb (r =? 0).

(** *** Primitives *)

Definition emit (e : event) : M unit := fun _ st => (Value tt, record e st).

Definition printf (format : string) (args : list Z) : M unit :=
  emit (Printf format args).

Definition perror (msg : string) : M unit := emit (Perror msg).

(** [exit] never returns. *)
Definition exit (status : Z) : M unit := fun _ st =>
  (Halted (Exited status), record (Exit status) st).

(** A call whose only effect on the process is its return value. *)
Definition syscall (c : call) : M Z := fun k st =>
  (Value (sys_ret k c), record (Call c) st).

Definition mount (source : option string) (target : string)
    (fstype : option string) (flags : Z) (data : option string) : M Z :=
  syscall (Mount source target fstype flags data).

Definition sethostname (name : string) (len : Z) : M Z :=
  syscall (Sethostname name len).

Definition chroot (path : string) : M Z := syscall (Chroot path).

Definition chdir (path : string) : M Z := syscall (Chdir path).

Definition waitpid (pid : Z) (status : ptr) (options : Z) : M Z :=
  syscall (Waitpid pid status options).

Definition umount2 (target : string) (flags : Z) : M Z :=
  syscall (Umount2 target flags).

(** glibc's [clearenv] empties the environment and returns 0; the program
    drops its result. *)
Definition clearenv : M Z := fun _ st =>
  (Value 0, set_environ ∅ (record (Call Clearenv) st)).

(** The binding [setenv] makes: a variable already present is kept as it
    is when [overwrite] is 0. *)
Definition env_set (name value : string) (overwrite : Z)
    (env : gmap string string) : gmap string string :=
  match env !! name with
  | Some _ => if overwrite =? 0 then env else <[name := value]> env
  | None => <[name := value]> env
  end.
Arguments env_set : simpl never.

(** [setenv]: on success (0) the variable is bound; on failure nothing
    changes. *)
Definition setenv (name value : string) (overwrite : Z) : M Z := fun k st =>
  let c := Setenv name value overwrite in
  let r := sys_ret k c in
  let st1 := record (Call c) st in
  if r =? 0
  then (Value r, set_environ (env_set name value overwrite (environ st)) st1)
  else (Value r, st1).

(** [execv]: when the kernel finds the image the process is replaced and
    the new program receives the current environment; otherwise the call
    returns -1. *)
Definition execv (path : string) (argv : list string) : M Z := fun k st =>
  let st1 := record (Call (Execv path argv)) st in
  if exec_replaces k path argv
  then (Halted (Replaced path argv (environ st)), st1)
  else (Value (-1), st1).

(** A whole process: its entry function runs on a fresh log; returning from
    the entry function ends the process with the returned status. *)
Definition run (body : M Z) (k : os) (env : gmap string string) : halt * proc :=
  match body k (start env) with
  | (Value status, st) => (Exited status, st)
  | (Halted h, st) => (h, st)
  end.

(** ** [child_func]: the Isolation Bootstrap *)

Definition child_func (arg : ptr) : M Z :=
  printf ("=> Inside demo container!" +:+ nl) [];;
  r ← mount None "/" None (Z.lor MS_REC MS_PRIVATE) None;
  when (nonzero r)
    (perror "mount: make / private failed";; exit EXIT_FAILURE);;
  r ← sethostname "mycontainer" 11;
  when (nonzero r) (perror "sethostname failed";; exit EXIT_FAILURE);;
  r ← chroot "/tmp/mycontainer_root";
  when (nonzero r) (perror "chroot failed";; exit EXIT_FAILURE);;
  r ← chdir "/";
  when (nonzero r) (perror "chdir failed";; exit EXIT_FAILURE);;
  r ← mount (Some "proc") "/proc" (Some "proc") 0 None;
  when (nonzero r) (perror "mount /proc failed";; exit EXIT_FAILURE);;
  clearenv;;
  r ← setenv "PATH" "/bin:/usr/bin" 1;
  when (nonzero r) (perror "setenv PATH failed";; exit EXIT_FAILURE);;
  r ← setenv "HOME" "/" 1;
  when (nonzero r) (perror "setenv HOME failed";; exit EXIT_FAILURE);;
  r ← setenv "TERM" "xterm" 1;
  when (nonzero r) (perror "setenv TERM failed";; exit EXIT_FAILURE);;
  let args := ["/bin/sh"] in
  execv "/bin/sh" args;;
  perror "execv failed";;
  mret 1.

Definition entry_body (fn : entry) : ptr -> M Z :=
  match fn with
  | Child_func => child_func
  end.

(** The child process [clone] creates: it starts at [fn arg] with a copy of
    the caller's environment and runs to its end. *)
Definition spawn (fn : entry) (arg : ptr) (k : os)
    (env : gmap string string) : child_run :=
  let '(h, cst) := run (entry_body fn arg) k env in
  {| child_halt := h; child_log := log cst |}.
Arguments spawn : simpl never.

(** [clone]: on failure (-1) there is no child; otherwise the child exists
    and the caller gets its process identifier. *)
Definition clone (fn : entry) (stack : ptr) (flags : Z) (arg : ptr) : M Z :=
  fun k st =>
    let pid := sys_ret k (Clone fn stack flags arg) in
    let st1 := record (Call (Clone fn stack flags arg)) st in
    if pid =? -1 then (Value pid, st1)
    else (Value pid, set_child (spawn fn arg k (environ st)) st1).

(** ** [main]: the Launcher *)

Definition clone_flags : Z :=
  Z.lor (Z.lor (Z.lor (Z.lor CLONE_NEWUTS CLONE_NEWPID) CLONE_NEWNS)
               CLONE_NEWNET) SIGCHLD.

Definition main : M Z :=
  printf ("=> Starting the container launcher" +:+ nl) [];;
  let flags := clone_flags in
  pid ← clone Child_func (Addr "child_stack" STACK_SIZE) flags Null;
  when (pid =? -1) (perror "clone failed";; exit EXIT_FAILURE);;
  printf ("=> Child PID: %d" +:+ nl) [pid];;
  r ← waitpid pid Null 0;
  when (r =? -1) (perror "waitpid failed";; exit EXIT_FAILURE);;
  failed ← andM
    (r ← umount2 "/tmp/mycontainer_root/proc" MNT_DETACH; mret (nonzero r))
    (r ← umount2 "/tmp/mycontainer_root" MNT_DETACH; mret (nonzero r));
  when failed (perror "umount failed (may be okay if child cleaned up)");;
  printf ("=> Container exited" +:+ nl) [];;
  mret 0.

(** ** The seven steps of the bootstrap *)

Inductive step : Type :=
| Privatize
| Hostname
| SwitchRoot
| WorkDir
| MountProc
| EnvReset
| Exec.

Definition all_steps : list step :=
  [Privatize; Hostname; SwitchRoot; WorkDir; MountProc; EnvReset; Exec].

Definition step_index (s : step) : nat :=
  match s with
  | Privatize => 0
  | Hostname => 1
  | SwitchRoot => 2
  | WorkDir => 3
  | MountProc => 4
  | EnvReset => 5
  | Exec => 6
  end.

(** The calls each step makes, in the order it makes them. *)
Definition step_calls (s : step) : list call :=
  match s with
  | Privatize => [Mount None "/" None (Z.lor MS_REC MS_PRIVATE) None]
  | Hostname => [Sethostname "mycontainer" 11]
  | SwitchRoot => [Chroot "/tmp/mycontainer_root"]
  | WorkDir => [Chdir "/"]
  | MountProc => [Mount (Some "proc") "/proc" (Some "proc") 0 None]
  | EnvReset => [Clearenv; Setenv "PATH" "/bin:/usr/bin" 1;
                 Setenv "HOME" "/" 1; Setenv "TERM" "xterm" 1]
  | Exec => [Execv "/bin/sh" ["/bin/sh"]]
  end.

Definition steps_before (s : step) : list step := take (step_index s) all_steps.

Definition bootstrap_calls : list call := concat (step_calls <$> all_steps).

(** Whether the kernel lets a call through, as the program tests it. *)
Definition call_ok (k : os) (c : call) : bool :=
  match c with
  | Clearenv => true
  | Execv path argv => exec_replaces k path argv
  | Clone _ _ _ _ | Waitpid _ _ _ => negb (sys_ret k c =? -1)
  | _ => sys_ret k c =? 0
  end.

Definition step_ok (k : os) (s : step) : bool := forallb (call_ok k) (step_calls s).

Definition first_failure (k : os) : option step :=
  find (fun s => negb (step_ok k s)) all_steps.

Definition is_call (e : event) : option call :=
  match e with
  | Call c => Some c
  | _ => None
  end.

Definition calls_of (l : list event) : list call := omap is_call l.

Definition is_report (e : event) : option string :=
  match e with
  | Perror msg => Some msg
  | _ => None
  end.

Definition reports_of (l : list event) : list string := omap is_report l.

(** The messages a step reports when it fails. *)
Definition step_reports (s : step) : list string :=
  match s with
  | Privatize => ["mount: make / private failed"]
  | Hostname => ["sethostname failed"]
  | SwitchRoot => ["chroot failed"]
  | WorkDir => ["chdir failed"]
  | MountProc => ["mount /proc failed"]
  | EnvReset => ["setenv PATH failed"; "setenv HOME failed"; "setenv TERM failed"]
  | Exec => ["execv failed"]
  end.

(** The environment the bootstrap builds. *)
Definition allowlist : list (string * string) :=
  [("PATH", "/bin:/usr/bin"); ("HOME", "/"); ("TERM", "xterm")].

Definition container_env : gmap string string := list_to_map allowlist.
Arguments container_env : simpl never.

(** The status a finished process leaves to whoever waits for it. *)
Definition exit_status (k : os) (h : halt) : Z :=
  match h with
  | Exited status => status
  | Replaced _ _ _ => workload_status k
  end.

(** ** The Launcher's calls *)

Definition clone_call : call :=
  Clone Child_func (Addr "child_stack" STACK_SIZE) clone_flags Null.

(** The wait is for the identifier the spawn returned. *)
Definition wait_call (k : os) : call := Waitpid (sys_ret k clone_call) Null 0.

Definition umount_proc : call := Umount2 "/tmp/mycontainer_root/proc" MNT_DETACH.

Definition umount_root : call := Umount2 "/tmp/mycontainer_root" MNT_DETACH.

Definition spawn_ok (k : os) : bool := call_ok k clone_call.

Definition wait_ok (k : os) : bool := call_ok k (wait_call k).

Definition cleanup_warning : string :=
  "umount failed (may be okay if child cleaned up)".

Definition is_umount (c : call) : bool :=
  match c with
  | Umount2 _ _ => true
  | _ => false
  end.

Definition is_execv (c : call) : bool :=
  match c with
  | Execv _ _ => true
  | _ => false
  end.

(** What the Launcher has done when it reaches its cleanup. *)
Definition supervised_log (k : os) : list event :=
  [Printf ("=> Starting the container launcher" +:+ nl) [];
   Call clone_call;
   Printf ("=> Child PID: %d" +:+ nl) [sys_ret k clone_call];
   Call (wait_call k)].

(** What the cleanup does, by the kernel's answers to the two unmounts. *)
Definition cleanup_log (k : os) : list event :=
  Call umount_proc ::
  (if call_ok k umount_proc then []
   else Call umount_root ::
        (if call_ok k umount_root then [] else [Perror cleanup_warning])).

(** ** Reading the flags of [clone]

    The low byte of the flags is the signal sent to the parent when the
    child ends; each namespace kind has its own bit above it.
    ([CLONE_NEWTIME] lies inside the signal byte and cannot be given to
    [clone].) *)

Inductive namespace : Type :=
| NsMount
| NsCgroup
| NsUts
| NsIpc
| NsUser
| NsPid
| NsNet.

Definition all_namespaces : list namespace :=
  [NsMount; NsCgroup; NsUts; NsIpc; NsUser; NsPid; NsNet].

Definition ns_flag (n : namespace) : Z :=
  match n with
  | NsMount => CLONE_NEWNS
  | NsCgroup => CLONE_NEWCGROUP
  | NsUts => CLONE_NEWUTS
  | NsIpc => CLONE_NEWIPC
  | NsUser => CLONE_NEWUSER
  | NsPid => CLONE_NEWPID
  | NsNet => CLONE_NEWNET
  end.

Definition requests (flags : Z) (n : namespace) : bool :=
  negb (Z.land flags (ns_flag n) =? 0).

Definition exit_signal (flags : Z) : Z := Z.land flags CSIGNAL.

(** ** Sample kernels *)

(** Every call succeeds, except those [bad] selects; the workload ends with
    [status]. *)
Definition os_failing (bad : call -> bool) (status : Z) : os :=
  {| sys_ret := fun c =>
       if bad c then -1
       else match c with
            | Clone _ _ _ _ => 4242
            | Waitpid pid _ _ => pid
            | _ => 0
            end;
     exec_replaces := fun path argv => negb (bad (Execv path argv));
     workload_status := status |}.

Definition os_ok : os := os_failing (fun _ => false) 0.

(** The selectors used for the sample kernels. *)
Definition is_privatize (c : call) : bool :=
  match c with
  | Mount None _ _ _ _ => true
  | _ => false
  end.

Definition is_sethostname (c : call) : bool :=
  match c with
  | Sethostname _ _ => true
  | _ => false
  end.

Definition is_clone (c : call) : bool :=
  match c with
  | Clone _ _ _ _ => true
  | _ => false
  end.

Definition is_waitpid (c : call) : bool :=
  match c with
  | Waitpid _ _ _ => true
  | _ => false
  end.

Definition is_umount_proc (c : call) : bool :=
  match c with
  | Umount2 "/tmp/mycontainer_root/proc" _ => true
  | _ => false
  end.

Definition os_privatize_refused : os := os_failing is_privatize 0.

Definition os_hostname_refused : os := os_failing is_sethostname 0.

Definition os_spawn_refused : os := os_failing is_clone 0.

Definition os_wait_refused : os := os_failing is_waitpid 0.

(** Both unmounts fail. *)
Definition os_umount_refused : os := os_failing is_umount 0.

(** Only the unmount of /proc fails. *)
Definition os_umount_proc_refused : os := os_failing is_umount_proc 0.

(** Everything succeeds and the workload ends with status 42. *)
Definition os_workload_fails : os := os_failing (fun _ => false) 42.

(** ** Further vocabulary for the runs *)

(** The calls [main] can make, in the order it makes them. *)
Definition launcher_calls (k : os) : list call :=
  [clone_call; wait_call k; umount_proc; umount_root].

(** The steps that come before the environment is touched. *)
Definition setup_steps : list step := steps_before EnvReset.

(** The last thing the Launcher prints on its way to [return 0]. *)
Definition farewell : event := Printf ("=> Container exited" +:+ nl) [].

(** A log in which nothing but the end of the process follows a report,
    and nothing at all follows an [exit]. *)
Fixpoint ends_after_report (l : list event) : bool :=
  match l with
  | [] => true
  | Perror _ :: rest =>
      match rest with
      | [] | [Exit _] => true
      | _ => false
      end
  | Exit _ :: rest =>
      match rest with
      | [] => true
      | _ => false
      end
  | _ :: rest => ends_after_report rest
  end.

Definition is_replaced (h : halt) : bool :=
  match h with
  | Replaced _ _ _ => true
  | Exited _ => false
  end.

(** ** Proof tools *)

Ltac unfold_proc :=
  unfold run, child_func, main, andM, waitpid, umount2, clone,
    mount, sethostname, chroot, chdir, syscall, setenv, execv, clearenv,
    printf, perror, emit, exit, when, nonzero, mbind, M_bind, mret, M_ret.

(** Case analysis on the program's test of the result of a call. *)
Ltac on_call c :=
  let E := fresh "E" in
  destruct (sys_ret _ c =? _) eqn:E; rewrite ?E; cbn.

Ltac on_exec :=
  let E := fresh "E" in
  destruct (exec_replaces _ _ _) eqn:E; cbn.

(** The ten ways through [child_func]: one per tested call that fails, and
    the run in which none does.  Each case keeps the equations on the
    kernel's answers that lead to it. *)
Ltac bootstrap_cases :=
  unfold_proc; cbn;
  on_call uconstr:(Mount None _ _ _ _);
  [ on_call uconstr:(Sethostname _ _);
    [ on_call uconstr:(Chroot _);
      [ on_call uconstr:(Chdir _);
        [ on_call uconstr:(Mount (Some _) _ _ _ _);
          [ on_call uconstr:(Setenv "PATH" _ _);
            [ on_call uconstr:(Setenv "HOME" _ _);
              [ on_call uconstr:(Setenv "TERM" _ _); [ on_exec | ] | ]
            | ]
          | ]
        | ]
      | ]
    | ]
  | ].

(** The five ways through [main]: the spawn is refused, the wait is
    refused, the first unmount goes through, only the second does, neither
    does. *)
Ltac launcher_cases :=
  unfold spawn_ok, wait_ok, wait_call, call_ok, clone_call, umount_proc,
    umount_root;
  unfold_proc; cbn;
  on_call uconstr:(Clone _ _ _ _);
  [ | on_call uconstr:(Waitpid _ _ _);
      [ | on_call uconstr:(Umount2 "/tmp/mycontainer_root/proc" _);
          [ | on_call uconstr:(Umount2 "/tmp/mycontainer_root" _) ] ] ].

(** ** Sample runs *)

Example bootstrap_run_ok :
  run (child_func Null) os_ok {["SECRET" := "hunter2"]}
  = (Replaced "/bin/sh" ["/bin/sh"] container_env,
     {| environ := container_env;
        log := [Printf ("=> Inside demo container!" +:+ nl) [];
                Call (Mount None "/" None 278528 None);
                Call (Sethostname "mycontainer" 11);
                Call (Chroot "/tmp/mycontainer_root");
                Call (Chdir "/");
                Call (Mount (Some "proc") "/proc" (Some "proc") 0 None);
                Call Clearenv;
                Call (Setenv "PATH" "/bin:/usr/bin" 1);
                Call (Setenv "HOME" "/" 1);
                Call (Setenv "TERM" "xterm" 1);
                Call (Execv "/bin/sh" ["/bin/sh"])];
        child := None |}).
Proof. reflexivity. Qed.

Example bootstrap_run_hostname_refused :
  run (child_func Null) os_hostname_refused ∅
  = (Exited 1,
     {| environ := ∅;
        log := [Printf ("=> Inside demo container!" +:+ nl) [];
                Call (Mount None "/" None 278528 None);
                Call (Sethostname "mycontainer" 11);
                Perror "sethostname failed";
                Exit 1];
        child := None |}).
Proof. reflexivity. Qed.

Example launcher_run_ok :
  (run main os_ok ∅).1 = Exited 0
  ∧ log (run main os_ok ∅).2
    = [Printf ("=> Starting the container launcher" +:+ nl) [];
       Call (Clone Child_func (Addr "child_stack" 1048576) 1677852689 Null);
       Printf ("=> Child PID: %d" +:+ nl) [4242];
       Call (Waitpid 4242 Null 0);
       Call (Umount2 "/tmp/mycontainer_root/proc" 2);
       Printf ("=> Container exited" +:+ nl) []].
Proof. split; reflexivity. Qed.

(** The Launcher ends with 0 although the workload ended with 42. *)
Example launcher_run_workload_fails :
  exit_status os_workload_fails
    (child_halt (spawn Child_func Null os_workload_fails ∅)) = 42
  ∧ (run main os_workload_fails ∅).1 = Exited 0.
Proof. split; reflexivity. Qed.

Example cleanup_run_proc_refused :
  call_ok os_umount_proc_refused umount_proc = false
  ∧ call_ok os_umount_proc_refused umount_root = true
  ∧ calls_of (log (run main os_umount_proc_refused ∅).2)
    = [clone_call; wait_call os_umount_proc_refused; umount_proc; umount_root]
  ∧ reports_of (log (run main os_umount_proc_refused ∅).2) = [].
Proof. split_and!; reflexivity. Qed.

(** ** The Isolation Bootstrap *)

Lemma env_after_reset :
  env_set "TERM" "xterm" 1
    (env_set "HOME" "/" 1 (env_set "PATH" "/bin:/usr/bin" 1 ∅))
  = container_env.
Proof. reflexivity. Qed.

Lemma container_env_outside (name : string) :
  name ∉ allowlist.*1 → container_env !! name = None.
Proof.
  intros Hname. apply not_elem_of_list_to_map_1. exact Hname.
Qed.

(** C1. The calls [child_func] makes are always an initial part of the
    fixed sequence of the seven steps.  When a step is the first one the
    kernel refuses, the run consists of every call of the earlier steps, in
    order, then the calls of that step up to the refused one, which is the
    last call made, and the process ends with [EXIT_FAILURE]: no call of a
    later step is made and none is repeated.  When no step fails all calls
    are made in order and the image is replaced by the shell. *)
Theorem child_func_steps_in_sequence (k : os) (host : gmap string string) :
  let '(h, st) := run (child_func Null) k host in
  calls_of (log st) `prefix_of` bootstrap_calls
  ∧ match first_failure k with
    | Some s =>
      ∃ attempted c,
        calls_of (log st) = concat (step_calls <$> steps_before s) ++ attempted
        ∧ attempted `prefix_of` step_calls s
        ∧ last attempted = Some c
        ∧ call_ok k c = false
        ∧ h = Exited 1
    | None =>
      calls_of (log st) = bootstrap_calls
      ∧ ∃ envp, h = Replaced "/bin/sh" ["/bin/sh"] envp
    end.
Proof.
  unfold first_failure, step_ok.
  bootstrap_cases.
  2-10: split;
    [ by eexists
    | eexists _, _; split_and!;
      [ reflexivity | by eexists | reflexivity | by cbn | reflexivity ] ].
  split; [by exists []|]. split; [reflexivity|]. by eexists.
Qed.

(** A message names one step only. *)
Lemma step_reports_disjoint (s1 s2 : step) (msg : string) :
  msg ∈ step_reports s1 → msg ∈ step_reports s2 → s1 = s2.
Proof.
  destruct s1, s2; cbn; rewrite ?elem_of_cons, ?elem_of_nil;
    try reflexivity; intros H1 H2; exfalso;
    repeat match goal with
    | H : _ ∨ _ |- _ => destruct H
    | H : False |- _ => destruct H
    end; simplify_eq.
Qed.

(** C2, as the claim has it, fails: the status does not tell the failing
    step.  A refused privatization and a refused hostname both end the
    bootstrap with status 1 (and the Launcher, whose wait succeeded, with
    status 0). *)
Lemma setup_failures_share_one_status :
  first_failure os_privatize_refused = Some Privatize
  ∧ first_failure os_hostname_refused = Some Hostname
  ∧ Privatize ≠ Hostname
  ∧ (run (child_func Null) os_privatize_refused ∅).1 = Exited 1
  ∧ (run (child_func Null) os_hostname_refused ∅).1 = Exited 1
  ∧ (run main os_privatize_refused ∅).1 = Exited 0
  ∧ (run main os_hostname_refused ∅).1 = Exited 0.
Proof. split_and!; try reflexivity. discriminate. Qed.

(** Whatever step fails first, the bootstrap ends with [EXIT_FAILURE] after
    reporting a single message, which belongs to that step. *)
Lemma bootstrap_failure (k : os) (host : gmap string string) (s : step) :
  first_failure k = Some s →
  ∃ st msg,
    run (child_func Null) k host = (Exited EXIT_FAILURE, st)
    ∧ reports_of (log st) = [msg]
    ∧ msg ∈ step_reports s.
Proof.
  unfold first_failure, step_ok.
  bootstrap_cases; intros [= <-]; eexists _, _;
    (split_and!; [reflexivity | reflexivity | cbn; set_solver]).
Qed.

(** When the first six steps go through, the environment is the allowlist
    from the last [setenv] on, and it is what [execv] hands over. *)
Lemma bootstrap_environment (k : os) (host : gmap string string) :
  forallb (step_ok k) (steps_before Exec) = true →
  ∃ st,
    run (child_func Null) k host =
      (if step_ok k Exec
       then Replaced "/bin/sh" ["/bin/sh"] container_env
       else Exited 1, st)
    ∧ environ st = container_env.
Proof.
  unfold step_ok.
  bootstrap_cases; try discriminate; intros _;
    rewrite env_after_reset; eexists; split; reflexivity.
Qed.

(** X10.  The recursive privatization of the mount tree is the first call of
    every run of the bootstrap, whatever the kernel answers: it precedes the
    root switch and the mount of /proc. *)
Lemma privatize_comes_first (k : os) (host : gmap string string) :
  head (calls_of (log (run (child_func Null) k host).2))
  = Some (Mount None "/" None (Z.lor MS_REC MS_PRIVATE) None)
  ∧ Z.land (Z.lor MS_REC MS_PRIVATE) MS_REC = MS_REC
  ∧ Z.land (Z.lor MS_REC MS_PRIVATE) MS_PRIVATE = MS_PRIVATE.
Proof. bootstrap_cases; split_and!; reflexivity. Qed.

Lemma allowlist_names_distinct : NoDup allowlist.*1.
Proof.
  cbn. rewrite !NoDup_cons, !elem_of_cons, !elem_of_nil.
  split_and!; try apply NoDup_nil_2; intros H; intuition congruence.
Qed.

(** C3.  Once the first six steps have gone through, the environment of
    the process is the allowlist: the three names with their literal values
    and nothing else, and it is the environment [execv] hands to the
    workload.  Nothing of the host's environment is in it: a variable the host
    had set under another name is absent, under each of the three names the
    value is the literal whatever the host had there, and the outcome is the
    same for every other host environment. *)
Theorem workload_environment (k : os) (host : gmap string string) :
  forallb (step_ok k) (steps_before Exec) = true →
  let '(h, st) := run (child_func Null) k host in
  environ st = container_env
  ∧ (step_ok k Exec = true → h = Replaced "/bin/sh" ["/bin/sh"] container_env)
  ∧ (∀ path argv envp, h = Replaced path argv envp → envp = container_env)
  ∧ map_to_list container_env ≡ₚ allowlist
  ∧ (∀ name value,
       host !! name = Some value → name ∉ allowlist.*1 →
       container_env !! name = None)
  ∧ (∀ name value,
       container_env !! name = Some value → (name, value) ∈ allowlist)
  ∧ (∀ host' : gmap string string,
       (run (child_func Null) k host').1 = h
       ∧ environ (run (child_func Null) k host').2 = container_env).
Proof.
  intros Hsteps.
  destruct (bootstrap_environment k host Hsteps) as (st & -> & Henv).
  split_and!.
  - exact Henv.
  - by intros ->.
  - destruct (step_ok k Exec); intros path argv envp [= ]; congruence.
  - apply map_to_list_to_map, allowlist_names_distinct.
  - intros name value _. apply container_env_outside.
  - intros name value. apply elem_of_list_to_map_2.
  - intros host'.
    destruct (bootstrap_environment k host' Hsteps) as (st' & -> & Henv').
    split; [reflexivity | exact Henv'].
Qed.

Lemma workload_environment_witness :
  forallb (step_ok os_ok) (steps_before Exec) = true
  ∧ let '(h, st) :=
      run (child_func Null) os_ok {["SECRET" := "hunter2"; "TERM" := "vt100"]}
    in
    environ st = container_env
    ∧ (step_ok os_ok Exec = true →
       h = Replaced "/bin/sh" ["/bin/sh"] container_env)
    ∧ (∀ path argv envp, h = Replaced path argv envp → envp = container_env)
    ∧ map_to_list container_env ≡ₚ allowlist
    ∧ (∀ name value,
         ({["SECRET" := "hunter2"; "TERM" := "vt100"]} : gmap string string)
           !! name = Some value →
         name ∉ allowlist.*1 →
         container_env !! name = None)
    ∧ (∀ name value,
         container_env !! name = Some value → (name, value) ∈ allowlist)
    ∧ (∀ host' : gmap string string,
         (run (child_func Null) os_ok host').1 = h
         ∧ environ (run (child_func Null) os_ok host').2 = container_env).
Proof.
  split; [reflexivity|].
  apply (workload_environment os_ok
           {["SECRET" := "hunter2"; "TERM" := "vt100"]}).
  reflexivity.
Defined.

(** ** The Launcher *)

Lemma main_spawn_refused (k : os) (host : gmap string string) :
  spawn_ok k = false →
  run main k host =
    (Exited EXIT_FAILURE,
     {| environ := host;
        log := [Printf ("=> Starting the container launcher" +:+ nl) [];
                Call clone_call; Perror "clone failed"; Exit EXIT_FAILURE];
        child := None |}).
Proof. launcher_cases; intros; done. Qed.

Lemma main_wait_refused (k : os) (host : gmap string string) :
  spawn_ok k = true → wait_ok k = false →
  run main k host =
    (Exited EXIT_FAILURE,
     {| environ := host;
        log := supervised_log k ++ [Perror "waitpid failed"; Exit EXIT_FAILURE];
        child := Some (spawn Child_func Null k host) |}).
Proof. launcher_cases; intros; done. Qed.

Lemma main_supervised (k : os) (host : gmap string string) :
  spawn_ok k = true → wait_ok k = true →
  run main k host =
    (Exited 0,
     {| environ := host;
        log := supervised_log k ++ cleanup_log k
               ++ [Printf ("=> Container exited" +:+ nl) []];
        child := Some (spawn Child_func Null k host) |}).
Proof.
  unfold cleanup_log, supervised_log.
  launcher_cases; intros; done.
Qed.

(** C2, amended.  Whatever step fails first, the bootstrap process ends with
    the one status [EXIT_FAILURE] after reporting a single message, which
    belongs to that step; and the Launcher ends with that same status when
    its spawn or its wait is refused.  The status is not 0. *)
Theorem failure_statuses (k : os) (host : gmap string string) :
  (∀ s, first_failure k = Some s →
     ∃ st msg,
       run (child_func Null) k host = (Exited EXIT_FAILURE, st)
       ∧ reports_of (log st) = [msg]
       ∧ msg ∈ step_reports s)
  ∧ (spawn_ok k && wait_ok k = false →
     (run main k host).1 = Exited EXIT_FAILURE)
  ∧ EXIT_FAILURE ≠ 0.
Proof.
  split_and!.
  - intros s. apply bootstrap_failure.
  - intros Hfail. destruct (spawn_ok k) eqn:Hspawn.
    + by rewrite main_wait_refused.
    + by rewrite main_spawn_refused.
  - discriminate.
Qed.

Lemma failure_statuses_witness :
  (first_failure os_hostname_refused = Some Hostname
   ∧ ∃ st msg,
       run (child_func Null) os_hostname_refused ∅
       = (Exited EXIT_FAILURE, st)
       ∧ reports_of (log st) = [msg]
       ∧ msg ∈ step_reports Hostname)
  ∧ (spawn_ok os_wait_refused && wait_ok os_wait_refused
     = false
     ∧ (run main os_wait_refused ∅).1 = Exited EXIT_FAILURE).
Proof.
  split; (split; [reflexivity|]).
  - apply (proj1 (failure_statuses os_hostname_refused ∅) Hostname).
    reflexivity.
  - apply (proj1 (proj2 (failure_statuses os_wait_refused ∅))).
    reflexivity.
Defined.

(** C4, as the claim has it, fails: when the spawn is refused the only call
    of the Launcher is [clone], and when the wait is refused its calls are
    [clone] and [waitpid]; no unmount is attempted in either run. *)
Lemma cleanup_skipped_on_launcher_failure :
  spawn_ok os_spawn_refused = false
  ∧ calls_of (log (run main os_spawn_refused ∅).2) = [clone_call]
  ∧ existsb is_umount (calls_of (log (run main os_spawn_refused ∅).2))
    = false
  ∧ wait_ok os_wait_refused = false
  ∧ calls_of (log (run main os_wait_refused ∅).2)
    = [clone_call; wait_call os_wait_refused]
  ∧ existsb is_umount (calls_of (log (run main os_wait_refused ∅).2))
    = false.
Proof. split_and!; reflexivity. Qed.

(** C4, amended.  The cleanup runs exactly when the spawn and the wait both
    succeeded, whatever became of the child, and then the unmounts are the
    last calls of the Launcher.  When the spawn or the wait is refused, the
    refused call is the last call the Launcher makes: it reports that
    failure, ends with [EXIT_FAILURE] right after, and attempts no unmount. *)
Theorem cleanup_follows_supervision (k : os) (host : gmap string string) :
  let '(h, st) := run main k host in
  if spawn_ok k && wait_ok k
  then
    ∃ cleanup,
      calls_of (log st) = [clone_call; wait_call k] ++ cleanup
      ∧ head cleanup = Some umount_proc
      ∧ forallb is_umount cleanup = true
      ∧ child st = Some (spawn Child_func Null k host)
      ∧ h = Exited 0
  else
    existsb is_umount (calls_of (log st)) = false
    ∧ h = Exited EXIT_FAILURE
    ∧ log st =
        (if spawn_ok k
         then [Printf ("=> Starting the container launcher" +:+ nl) [];
               Call clone_call;
               Printf ("=> Child PID: %d" +:+ nl) [sys_ret k clone_call];
               Call (wait_call k);
               Perror "waitpid failed";
               Exit EXIT_FAILURE]
         else [Printf ("=> Starting the container launcher" +:+ nl) [];
               Call clone_call;
               Perror "clone failed";
               Exit EXIT_FAILURE])
    ∧ child st =
        (if spawn_ok k then Some (spawn Child_func Null k host) else None).
Proof.
  destruct (spawn_ok k) eqn:Hspawn; [destruct (wait_ok k) eqn:Hwait|]; cbn.
  - rewrite main_supervised by done. unfold cleanup_log.
    destruct (call_ok k umount_proc); [|destruct (call_ok k umount_root)];
      eexists; split_and!; reflexivity.
  - rewrite main_wait_refused by done. done.
  - rewrite main_spawn_refused by done. done.
Qed.

(** C5.  The second thing [main] does, after its banner, is one [clone]
    whose entry point is [child_func], whose stack pointer is the top of
    [child_stack], and whose flags are the four namespace bits UTS, PID,
    mount and network, no other namespace bit, and SIGCHLD as the signal
    sent when the child ends.  When the call succeeds the child is the run
    of [child_func] on the Launcher's environment, and the value returned is
    the identifier the Launcher prints and waits for; when it is refused
    there is no child. *)
Theorem spawn_request (k : os) (host : gmap string string) :
  let '(h, st) := run main k host in
  (∃ rest,
     log st =
       [Printf ("=> Starting the container launcher" +:+ nl) [];
        Call (Clone Child_func (Addr "child_stack" STACK_SIZE) clone_flags Null)]
       ++ rest
     ∧ if spawn_ok k
       then ∃ rest',
         rest = [Printf ("=> Child PID: %d" +:+ nl) [sys_ret k clone_call];
                 Call (Waitpid (sys_ret k clone_call) Null 0)] ++ rest'
       else rest = [Perror "clone failed"; Exit EXIT_FAILURE])
  ∧ child st =
      (if spawn_ok k
       then Some {| child_halt := (run (child_func Null) k host).1;
                    child_log := log (run (child_func Null) k host).2 |}
       else None)
  ∧ List.filter (requests clone_flags) all_namespaces
    = [NsMount; NsUts; NsPid; NsNet]
  ∧ exit_signal clone_flags = SIGCHLD
  ∧ clone_flags
    = CLONE_NEWUTS + CLONE_NEWPID + CLONE_NEWNS + CLONE_NEWNET + SIGCHLD.
Proof.
  assert (Hchild : spawn Child_func Null k host =
            {| child_halt := (run (child_func Null) k host).1;
               child_log := log (run (child_func Null) k host).2 |}).
  { unfold spawn. cbn. by destruct (run (child_func Null) k host). }
  destruct (spawn_ok k) eqn:Hspawn; [destruct (wait_ok k) eqn:Hwait|].
  - rewrite main_supervised by done. cbn -[run].
    split_and!; try reflexivity; [by eexists _; split; [|eexists] | by f_equal].
  - rewrite main_wait_refused by done. cbn -[run].
    split_and!; try reflexivity; [by eexists _; split; [|eexists] | by f_equal].
  - rewrite main_spawn_refused by done. cbn -[run].
    split_and!; try reflexivity. by eexists.
Qed.

(** C6.  When the Launcher reaches its cleanup, its first unmount is the
    detached unmount of /proc under the root; the detached unmount of the
    root itself follows exactly when the first one failed; when both fail the
    warning is reported; and in every case the Launcher ends with status 0. *)
Theorem cleanup_is_best_effort (k : os) (host : gmap string string) :
  spawn_ok k = true → wait_ok k = true →
  ∃ st,
    run main k host = (Exited 0, st)
    ∧ calls_of (log st) =
        [clone_call; wait_call k;
         Umount2 "/tmp/mycontainer_root/proc" MNT_DETACH]
        ++ (if sys_ret k (Umount2 "/tmp/mycontainer_root/proc" MNT_DETACH) =? 0
            then []
            else [Umount2 "/tmp/mycontainer_root" MNT_DETACH])
    ∧ (call_ok k umount_proc = false → call_ok k umount_root = false →
       reports_of (log st) = [cleanup_warning]).
Proof.
  intros Hspawn Hwait. rewrite main_supervised by done.
  eexists; split; [reflexivity|].
  unfold cleanup_log, call_ok, umount_proc, umount_root.
  destruct (sys_ret k (Umount2 "/tmp/mycontainer_root/proc" _) =? 0);
    [|destruct (sys_ret k (Umount2 "/tmp/mycontainer_root" _) =? 0)];
    cbn; split; try reflexivity; intros; discriminate.
Qed.

Lemma cleanup_is_best_effort_witness :
  spawn_ok os_umount_refused = true ∧ wait_ok os_umount_refused = true
  ∧ ∃ st,
      run main os_umount_refused ∅ = (Exited 0, st)
      ∧ calls_of (log st) =
          [clone_call; wait_call os_umount_refused;
           Umount2 "/tmp/mycontainer_root/proc" MNT_DETACH]
          ++ (if sys_ret os_umount_refused
                   (Umount2 "/tmp/mycontainer_root/proc" MNT_DETACH) =? 0
              then []
              else [Umount2 "/tmp/mycontainer_root" MNT_DETACH])
      ∧ (call_ok os_umount_refused umount_proc = false →
         call_ok os_umount_refused umount_root = false →
         reports_of (log st) = [cleanup_warning]).
Proof.
  split_and!; [reflexivity | reflexivity |].
  apply (cleanup_is_best_effort os_umount_refused ∅); reflexivity.
Defined.

(** C7.  When the spawn or the wait is refused the Launcher reports that
    failure and nothing else, and ends at once with [EXIT_FAILURE], which is
    not 0.  It never executes the workload itself, and after a refused
    spawn there is no child to execute it either. *)
Theorem launcher_failure_is_fatal (k : os) (host : gmap string string) :
  spawn_ok k && wait_ok k = false →
  ∃ st,
    run main k host = (Exited EXIT_FAILURE, st)
    ∧ EXIT_FAILURE ≠ 0
    ∧ reports_of (log st)
      = [if spawn_ok k then "waitpid failed" else "clone failed"]
    ∧ last (log st) = Some (Exit EXIT_FAILURE)
    ∧ existsb is_execv (calls_of (log st)) = false
    ∧ (spawn_ok k = false → child st = None).
Proof.
  intros Hfail. destruct (spawn_ok k) eqn:Hspawn.
  - rewrite main_wait_refused by done.
    eexists; split_and!; try reflexivity; discriminate.
  - rewrite main_spawn_refused by done.
    eexists; split_and!; try reflexivity; discriminate.
Qed.

Lemma launcher_failure_is_fatal_witness :
  spawn_ok os_spawn_refused && wait_ok os_spawn_refused = false
  ∧ ∃ st,
      run main os_spawn_refused ∅ = (Exited EXIT_FAILURE, st)
      ∧ EXIT_FAILURE ≠ 0
      ∧ reports_of (log st)
        = [if spawn_ok os_spawn_refused
           then "waitpid failed" else "clone failed"]
      ∧ last (log st) = Some (Exit EXIT_FAILURE)
      ∧ existsb is_execv (calls_of (log st)) = false
      ∧ (spawn_ok os_spawn_refused = false → child st = None).
Proof.
  split; [reflexivity|].
  apply (launcher_failure_is_fatal os_spawn_refused ∅). reflexivity.
Defined.

(** C8.  When the spawn and the wait both succeed the Launcher ends with
    status 0.  The wait is made with a null status pointer, so the status
    the child ended with, whatever it is, is not read. *)
Theorem launcher_status_ignores_workload (k : os) (host : gmap string string) :
  spawn_ok k = true → wait_ok k = true →
  ∃ st c,
    run main k host = (Exited 0, st)
    ∧ child st = Some c
    ∧ c = spawn Child_func Null k host
    ∧ Call (Waitpid (sys_ret k clone_call) Null 0) ∈ log st.
Proof.
  intros Hspawn Hwait. rewrite main_supervised by done.
  eexists _, _; split_and!; try reflexivity.
  unfold supervised_log, wait_call. cbn. set_solver.
Qed.

Lemma launcher_status_ignores_workload_witness :
  spawn_ok os_workload_fails = true ∧ wait_ok os_workload_fails = true
  ∧ ∃ st c,
      run main os_workload_fails ∅ = (Exited 0, st)
      ∧ child st = Some c
      ∧ c = spawn Child_func Null os_workload_fails ∅
      ∧ Call (Waitpid (sys_ret os_workload_fails clone_call) Null 0) ∈ log st.
Proof.
  split_and!; [reflexivity | reflexivity |].
  apply (launcher_status_ignores_workload os_workload_fails ∅); reflexivity.
Defined.

(** C10.  In the cleanup the root is unmounted exactly when the unmount of
    /proc failed, and the warning is reported exactly when both unmounts
    failed: when the first fails and the second goes through, the Launcher
    reports nothing at all. *)
Theorem cleanup_warning_needs_both_failures (k : os) (host : gmap string string) :
  spawn_ok k = true → wait_ok k = true →
  ∃ st,
    run main k host = (Exited 0, st)
    ∧ (umount_root ∈ calls_of (log st) ↔ call_ok k umount_proc = false)
    ∧ (Perror cleanup_warning ∈ log st
       ↔ call_ok k umount_proc = false ∧ call_ok k umount_root = false)
    ∧ (call_ok k umount_proc = false → call_ok k umount_root = true →
       reports_of (log st) = []).
Proof.
  intros Hspawn Hwait. rewrite main_supervised by done.
  eexists; split; [reflexivity|].
  unfold cleanup_log, supervised_log, wait_call.
  destruct (call_ok k umount_proc); [|destruct (call_ok k umount_root)]; cbn;
    rewrite ?elem_of_cons, ?elem_of_nil;
    split_and!; try split; try reflexivity; try discriminate;
    intuition (try discriminate; try congruence; auto).
Qed.

Lemma cleanup_warning_needs_both_failures_witness :
  spawn_ok os_umount_proc_refused = true
  ∧ wait_ok os_umount_proc_refused = true
  ∧ ∃ st,
      run main os_umount_proc_refused ∅ = (Exited 0, st)
      ∧ (umount_root ∈ calls_of (log st)
         ↔ call_ok os_umount_proc_refused umount_proc = false)
      ∧ (Perror cleanup_warning ∈ log st
         ↔ call_ok os_umount_proc_refused umount_proc = false
           ∧ call_ok os_umount_proc_refused umount_root = false)
      ∧ (call_ok os_umount_proc_refused umount_proc = false →
         call_ok os_umount_proc_refused umount_root = true →
         reports_of (log st) = []).
Proof.
  split_and!; [reflexivity | reflexivity |].
  apply (cleanup_warning_needs_both_failures os_umount_proc_refused ∅);
    reflexivity.
Defined.

(** ** Further properties of the two functions *)

(** The child [clone] makes does the same whatever environment it
    inherits. *)
Lemma spawn_ignores_host (k : os) (host1 host2 : gmap string string) :
  spawn Child_func Null k host1 = spawn Child_func Null k host2.
Proof. unfold spawn, entry_body. bootstrap_cases; reflexivity. Qed.

(** X1.  [main] neither reads nor changes its environment: its status, its
    log and its child are the same for any two host environments, and the
    environment it ends with is the one it started with. *)
Theorem launcher_leaves_environment_alone (k : os)
    (host1 host2 : gmap string string) :
  (run main k host1).1 = (run main k host2).1
  ∧ log (run main k host1).2 = log (run main k host2).2
  ∧ child (run main k host1).2 = child (run main k host2).2
  ∧ environ (run main k host1).2 = host1.
Proof.
  destruct (spawn_ok k) eqn:Hspawn; [destruct (wait_ok k) eqn:Hwait|].
  - rewrite !main_supervised by done. cbn.
    split_and!; try reflexivity. f_equal. apply spawn_ignores_host.
  - rewrite !main_wait_refused by done. cbn.
    split_and!; try reflexivity. f_equal. apply spawn_ignores_host.
  - rewrite !main_spawn_refused by done. cbn. done.
Qed.

(** X2.  The calls of [main] are always an initial part of the sequence
    clone, waitpid, unmount of /proc, unmount of the root, starting with the
    clone: the Launcher never mounts, never changes its own root, directory,
    hostname or environment, never executes an image, and repeats no
    call. *)
Theorem launcher_calls_in_sequence (k : os) (host : gmap string string) :
  calls_of (log (run main k host).2) `prefix_of` launcher_calls k
  ∧ head (calls_of (log (run main k host).2)) = Some clone_call
  ∧ NoDup (launcher_calls k).
Proof.
  split_and!.
  - destruct (spawn_ok k) eqn:Hspawn; [destruct (wait_ok k) eqn:Hwait|].
    + rewrite main_supervised by done. unfold cleanup_log.
      destruct (call_ok k umount_proc); [|destruct (call_ok k umount_root)];
        by eexists.
    + rewrite main_wait_refused by done. by eexists.
    + rewrite main_spawn_refused by done. by eexists.
  - destruct (spawn_ok k) eqn:Hspawn; [destruct (wait_ok k) eqn:Hwait|].
    + by rewrite main_supervised.
    + by rewrite main_wait_refused.
    + by rewrite main_spawn_refused.
  - unfold launcher_calls, clone_call, wait_call, umount_proc, umount_root.
    rewrite !NoDup_cons, !elem_of_cons, !elem_of_nil.
    split_and!; try apply NoDup_nil_2; intros H; intuition congruence.
Qed.

(** X3.  What the bootstrap does and how it ends do not depend on the
    environment it inherits. *)
Theorem bootstrap_ignores_host_environment (k : os)
    (host1 host2 : gmap string string) :
  (run (child_func Null) k host1).1 = (run (child_func Null) k host2).1
  ∧ log (run (child_func Null) k host1).2
    = log (run (child_func Null) k host2).2.
Proof. bootstrap_cases; split; reflexivity. Qed.

Lemma env_set_path_included :
  env_set "PATH" "/bin:/usr/bin" 1 ∅ ⊆ container_env.
Proof.
  apply map_subseteq_spec. intros name value.
  change (env_set "PATH" "/bin:/usr/bin" 1 ∅)
    with (<["PATH" := "/bin:/usr/bin"]> (∅ : gmap string string)).
  rewrite lookup_insert_Some, lookup_empty. intros [[<- <-]|[_ [=]]].
  reflexivity.
Qed.

Lemma env_set_home_included :
  env_set "HOME" "/" 1 (env_set "PATH" "/bin:/usr/bin" 1 ∅) ⊆ container_env.
Proof.
  apply map_subseteq_spec. intros name value.
  change (env_set "HOME" "/" 1 (env_set "PATH" "/bin:/usr/bin" 1 ∅))
    with (<["HOME" := "/"]>
            (<["PATH" := "/bin:/usr/bin"]> (∅ : gmap string string))).
  rewrite !lookup_insert_Some, lookup_empty.
  intros [[<- <-]|[_ [[<- <-]|[_ [=]]]]]; reflexivity.
Qed.

(** X4.  The environment the bootstrap ends with, on every path.  When one
    of the first five steps fails it is the inherited environment,
    untouched.  Once those have gone through it is a part of the allowlist,
    also when a [setenv] or the [execv] fails: nothing inherited is left. *)
Theorem bootstrap_environment_on_every_path (k : os)
    (host : gmap string string) :
  if forallb (step_ok k) setup_steps
  then environ (run (child_func Null) k host).2 ⊆ container_env
  else environ (run (child_func Null) k host).2 = host.
Proof.
  unfold step_ok. bootstrap_cases; rewrite ?env_after_reset;
    first [ reflexivity
          | apply env_set_home_included
          | apply env_set_path_included
          | apply map_empty_subseteq ].
Qed.

(** X5.  A failed bootstrap does not show in the Launcher's status.  When
    the spawn and the wait succeed and a step of the bootstrap fails, the
    child ends with status 1, the Launcher still runs its cleanup, prints
    its farewell and ends with status 0. *)
Theorem bootstrap_failure_not_propagated (k : os) (host : gmap string string)
    (s : step) :
  spawn_ok k = true → wait_ok k = true → first_failure k = Some s →
  ∃ st c,
    run main k host = (Exited 0, st)
    ∧ child st = Some c
    ∧ exit_status k (child_halt c) = 1
    ∧ umount_proc ∈ calls_of (log st)
    ∧ last (log st) = Some farewell.
Proof.
  intros Hspawn Hwait Hfail. rewrite main_supervised by done.
  destruct (bootstrap_failure k host s Hfail) as (cst & msg & Hrun & _).
  eexists _, _; split_and!; try reflexivity.
  - unfold spawn, entry_body. by rewrite Hrun.
  - unfold supervised_log, cleanup_log. cbn. set_solver.
  - rewrite !app_assoc. apply last_snoc.
Qed.

Lemma bootstrap_failure_not_propagated_witness :
  spawn_ok os_hostname_refused = true
  ∧ wait_ok os_hostname_refused = true
  ∧ first_failure os_hostname_refused = Some Hostname
  ∧ ∃ st c,
      run main os_hostname_refused ∅ = (Exited 0, st)
      ∧ child st = Some c
      ∧ exit_status os_hostname_refused (child_halt c) = 1
      ∧ umount_proc ∈ calls_of (log st)
      ∧ last (log st) = Some farewell.
Proof.
  split_and!; [reflexivity | reflexivity | reflexivity |].
  apply (bootstrap_failure_not_propagated os_hostname_refused ∅ Hostname);
    reflexivity.
Defined.

(** X6.  The length the bootstrap gives to [sethostname] is the length of
    the name it gives: the whole name is set, and nothing is read past its
    end. *)
Theorem sethostname_length_is_exact (k : os) (host : gmap string string)
    (name : string) (len : Z) :
  Sethostname name len ∈ calls_of (log (run (child_func Null) k host).2) →
  len = Z.of_nat (String.length name).
Proof.
  bootstrap_cases; rewrite ?elem_of_cons, ?elem_of_nil;
    intros H; repeat destruct H as [H|H]; try discriminate H;
    try (injection H as -> ->; reflexivity); destruct H.
Qed.

Lemma sethostname_length_is_exact_witness :
  Sethostname "mycontainer" 11
    ∈ calls_of (log (run (child_func Null) os_ok ∅).2)
  ∧ 11 = Z.of_nat (String.length "mycontainer").
Proof.
  assert (H : Sethostname "mycontainer" 11
                ∈ calls_of (log (run (child_func Null) os_ok ∅).2)).
  { apply (list_elem_of_lookup_2 _ 1%nat). reflexivity. }
  split; [exact H|].
  exact (sethostname_length_is_exact os_ok ∅ "mycontainer" 11 H).
Defined.

(** X7.  No step is started before the steps ahead of it have succeeded:
    when a call of a step is in the log of the bootstrap, the kernel let every
    call of every earlier step through.  In particular [execv] is only ever
    called in a private mount tree, under the new root, with /proc mounted
    and the environment reset. *)
Theorem step_started_after_earlier_steps (k : os) (host : gmap string string)
    (s : step) (c : call) :
  c ∈ step_calls s →
  c ∈ calls_of (log (run (child_func Null) k host).2) →
  forallb (step_ok k) (steps_before s) = true.
Proof.
  intros Hs. unfold step_ok, steps_before.
  destruct s; cbn in Hs; decompose_list_elem_of; subst c;
    bootstrap_cases; try reflexivity;
    intros Hlog; decompose_list_elem_of; discriminate.
Qed.

Lemma step_started_after_earlier_steps_witness :
  Execv "/bin/sh" ["/bin/sh"] ∈ step_calls Exec
  ∧ Execv "/bin/sh" ["/bin/sh"]
      ∈ calls_of (log (run (child_func Null) os_ok ∅).2)
  ∧ forallb (step_ok os_ok) (steps_before Exec) = true.
Proof.
  assert (Hs : Execv "/bin/sh" ["/bin/sh"] ∈ step_calls Exec).
  { apply (list_elem_of_lookup_2 _ 0%nat). reflexivity. }
  assert (Hlog : Execv "/bin/sh" ["/bin/sh"]
                   ∈ calls_of (log (run (child_func Null) os_ok ∅).2)).
  { apply (list_elem_of_lookup_2 _ 9%nat). reflexivity. }
  split_and!; [exact Hs | exact Hlog |].
  exact (step_started_after_earlier_steps os_ok ∅ Exec _ Hs Hlog).
Defined.

(** X8.  What a failed bootstrap reports tells which step failed: two failed
    runs with the same reports failed at the same step, whatever the kernels
    and the environments. *)
Theorem reports_identify_step (k1 k2 : os) (host1 host2 : gmap string string)
    (s1 s2 : step) :
  first_failure k1 = Some s1 → first_failure k2 = Some s2 →
  reports_of (log (run (child_func Null) k1 host1).2)
  = reports_of (log (run (child_func Null) k2 host2).2) →
  s1 = s2.
Proof.
  intros Hs1 Hs2.
  destruct (bootstrap_failure k1 host1 s1 Hs1) as (st1 & msg1 & Hr1 & Hl1 & Hm1).
  destruct (bootstrap_failure k2 host2 s2 Hs2) as (st2 & msg2 & Hr2 & Hl2 & Hm2).
  rewrite Hr1, Hr2. cbn. rewrite Hl1, Hl2.
  intros [= ->]. exact (step_reports_disjoint s1 s2 msg2 Hm1 Hm2).
Qed.

Lemma reports_identify_step_witness :
  first_failure os_hostname_refused = Some Hostname
  ∧ first_failure os_hostname_refused = Some Hostname
  ∧ reports_of (log (run (child_func Null) os_hostname_refused ∅).2)
    = reports_of
        (log (run (child_func Null) os_hostname_refused
                {["SECRET" := "hunter2"]}).2)
  ∧ Hostname = Hostname.
Proof.
  split_and!; [reflexivity | reflexivity | reflexivity |].
  apply (reports_identify_step os_hostname_refused os_hostname_refused
           ∅ {["SECRET" := "hunter2"]} Hostname Hostname); reflexivity.
Defined.

(** X9.  The bootstrap reports something exactly when it does not hand the
    process over, and in its log a report is followed by nothing but the end
    of the process. *)
Theorem bootstrap_reports_only_to_end (k : os) (host : gmap string string) :
  is_replaced (run (child_func Null) k host).1
  = bool_decide (reports_of (log (run (child_func Null) k host).2) = [])
  ∧ ends_after_report (log (run (child_func Null) k host).2) = true.
Proof. bootstrap_cases; split; reflexivity. Qed.

(** X11.  The status of the Launcher is 0 exactly when the spawn and the
    wait both succeeded, and exactly then its log ends with its farewell:
    a status of 0 means a child was created and waited for. *)
Theorem launcher_status_zero_iff_supervised (k : os)
    (host : gmap string string) :
  ((run main k host).1 = Exited 0 ↔ spawn_ok k && wait_ok k = true)
  ∧ (last (log (run main k host).2) = Some farewell
     ↔ spawn_ok k && wait_ok k = true)
  ∧ ((run main k host).1 = Exited 0 →
     child (run main k host).2 = Some (spawn Child_func Null k host)
     ∧ wait_call k ∈ calls_of (log (run main k host).2)).
Proof.
  destruct (spawn_ok k) eqn:Hspawn; [destruct (wait_ok k) eqn:Hwait|].
  - rewrite main_supervised by done. unfold cleanup_log, supervised_log.
    destruct (call_ok k umount_proc); [|destruct (call_ok k umount_root)];
      cbn; (split_and!; [by split | by split | intros _; split; [done|]]);
      apply (list_elem_of_lookup_2 _ 1%nat); reflexivity.
  - rewrite main_wait_refused by done. cbn. split_and!; try split; done.
  - rewrite main_spawn_refused by done. cbn. split_and!; try split; done.
Qed.

Lemma launcher_status_zero_iff_supervised_witness :
  (run main os_ok ∅).1 = Exited 0
  ∧ child (run main os_ok ∅).2 = Some (spawn Child_func Null os_ok ∅)
  ∧ wait_call os_ok ∈ calls_of (log (run main os_ok ∅).2).
Proof.
  split; [reflexivity|].
  apply (proj2 (proj2 (launcher_status_zero_iff_supervised os_ok ∅))).
  reflexivity.
Defined.
